(** * Vacareanu et al. (2015) ground-motion model: a shallow embedding

    This file embeds [src/Vacareanu_2015.py] (class [VacareanuEtAl2015]).

    Modelling choices, all following the Python source:
    - floating-point numbers are taken as real numbers [R] and [np.log] as [ln];
    - a numpy array is an [ndarray] (a float array or a bool array); the result
      of arithmetic is a [pyval]: a Python float ([PScalar]) or a float array
      ([PArr]); binary operators follow numpy broadcasting, raising
      [ExnBroadcast] ("operands could not be broadcast together") otherwise;
    - the truth value of an array ([if vs_star <= 360.0:]) is its single
      element for a one-element array, [False] for an empty one (the numpy of
      the source's era, with a deprecation warning) and a [ValueError]
      ([ExnAmbiguousTruth]) for longer arrays;
    - the input arrays ([sites.vs30], [sites.backarc], [dists.rhypo]) live in a
      store of arrays indexed by locations, so that in-place updates
      ([vs_star[mask] = v]) and copies ([.copy()]) are explicit;
    - the computation runs in a state and exception monad [M]; the state also
      records, in [trace], the methods of the class in the order they are
      called. *)

From Stdlib Require Import Reals Lra QArith.
From stdpp Require Import gmap list strings.

Open Scope R_scope.

(** ** Values *)

(** A numpy array as stored: float64 or bool. *)
Inductive ndarray : Type :=
| NFloat (xs : list R)
| NBool (bs : list bool).

(** A value produced by arithmetic: a Python float or a float array. *)
Inductive pyval : Type :=
| PScalar (x : R)
| PArr (xs : list R).

(** Exceptions the embedded code can raise. *)
Inductive exn : Type :=
| ExnBroadcast        (* ValueError: operands could not be broadcast together *)
| ExnAmbiguousTruth   (* ValueError: truth value of an array with more than one element *)
| AssertionError      (* a failed [assert] *)
| KeyError            (* [self.COEFFS[imt]] without a row for [imt] *)
| AttributeError.     (* an input array that is not there *)

Inductive result (A : Type) : Type :=
| Ok (a : A)
| Err (e : exn).
Arguments Ok {A} a.
Arguments Err {A} e.

(** The methods of the class, recorded when they are called. *)
Inductive event : Type :=
| EvMagnitudeTerm
| EvDistanceArcTerm
| EvFocalDepthTerm
| EvSiteResponseTerm
| EvStddevs.

(** ** The state and exception monad *)

Record state : Type := mkState {
  heap : gmap nat ndarray;
  trace : list event
}.

Definition M (A : Type) : Type := state -> state * result A.

Definition ret {A} (a : A) : M A := fun s => (s, Ok a).

Definition bind {A B} (c : M A) (k : A -> M B) : M B := fun s =>
  match c s with
  | (s1, Ok a) => k a s1
  | (s1, Err e) => (s1, Err e)
  end.

Definition lift {A} (r : result A) : M A := fun s => (s, r).

Notation "x <- c ;; k" := (bind c (fun x => k))
  (at level 100, c at next level, right associativity).
Notation "c ;; k" := (bind c (fun _ => k))
  (at level 100, right associativity).

(** Reading the array an attribute refers to. *)
Definition read (l : nat) : M ndarray := fun s =>
  match heap s !! l with
  | Some a => (s, Ok a)
  | None => (s, Err AttributeError)
  end.

(** A new array object (as made by [.copy()]). *)
Definition alloc (a : ndarray) : M nat := fun s =>
  let l := fresh (dom (heap s)) in
  (mkState (<[l := a]> (heap s)) (trace s), Ok l).

(** Overwriting the array object at [l] in place. *)
Definition write (l : nat) (a : ndarray) : M unit := fun s =>
  (mkState (<[l := a]> (heap s)) (trace s), Ok tt).

Definition record_call (ev : event) : M unit := fun s =>
  (mkState (heap s) (trace s ++ [ev]), Ok tt).

(** ** numpy *)

Definition b2R (b : bool) : R := if b then 1 else 0.

(** The elements of an array as numbers (a bool array as 0/1). *)
Definition as_floats (a : ndarray) : list R :=
  match a with
  | NFloat xs => xs
  | NBool bs => map b2R bs
  end.

Definition arr (a : ndarray) : pyval := PArr (as_floats a).

(** A binary arithmetic operator with numpy broadcasting (one dimension). *)
Definition broadcast2 (f : R -> R -> R) (u v : pyval) : result pyval :=
  match u, v with
  | PScalar x, PScalar y => Ok (PScalar (f x y))
  | PScalar x, PArr ys => Ok (PArr (map (f x) ys))
  | PArr xs, PScalar y => Ok (PArr (map (fun x => f x y) xs))
  | PArr xs, PArr ys =>
      if Nat.eqb (length xs) (length ys) then Ok (PArr (zip_with f xs ys))
      else match xs, ys with
           | [x], _ => Ok (PArr (map (f x) ys))
           | _, [y] => Ok (PArr (map (fun x => f x y) xs))
           | _, _ => Err ExnBroadcast
           end
  end.

Definition py_add := broadcast2 Rplus.
Definition py_sub := broadcast2 Rminus.
Definition py_mul := broadcast2 Rmult.

(** [np.log], element-wise.  (numpy gives -inf or nan for a non-positive
    argument; [ln] of the real numbers is total.) *)
Definition np_log (v : pyval) : pyval :=
  match v with
  | PScalar x => PScalar (ln x)
  | PArr xs => PArr (map ln xs)
  end.

Definition Rgtb (x y : R) : bool := if Rlt_dec y x then true else false.
Definition Rltb (x y : R) : bool := if Rlt_dec x y then true else false.
Definition Rleb (x y : R) : bool := if Rle_dec x y then true else false.

(** An element-wise comparison of an array with a number: a bool mask. *)
Definition np_cmp (cmp : R -> R -> bool) (a : ndarray) (y : R) : list bool :=
  map (fun x => cmp x y) (as_floats a).

(** [a[mask] = v]: the masked assignment, in place on the array object. *)
Definition setitem_mask (a : ndarray) (mask : list bool) (v : R) : ndarray :=
  match a with
  | NFloat xs => NFloat (zip_with (fun (m : bool) (x : R) => if m then v else x) mask xs)
  | NBool bs => NBool (zip_with (fun (m b : bool) => if m then negb (Rleb v 0 && Rleb 0 v) else b) mask bs)
  end.

(** The truth value of a bool array, as [if] takes it. *)
Definition truth (bs : list bool) : result bool :=
  match bs with
  | [] => Ok false
  | [b] => Ok b
  | _ => Err ExnAmbiguousTruth
  end.

(** ** Inputs *)

(** The site collection: the locations of its arrays. *)
Record Sites : Type := mkSites {
  vs30 : nat;
  backarc : nat
}.

Record Rupture : Type := mkRupture {
  mag : R;
  hypo_depth : R
}.

Record Distances : Type := mkDistances {
  rhypo : nat
}.

(** [const.StdDev]: the three supported kinds and any other value. *)
Inductive StdDev : Type :=
| TOTAL
| INTER_EVENT
| INTRA_EVENT
| StdDevOther (name : string).

Definition DEFINED_FOR_STANDARD_DEVIATION_TYPES (t : StdDev) : bool :=
  match t with
  | TOTAL | INTER_EVENT | INTRA_EVENT => true
  | StdDevOther _ => false
  end.

Inductive IMT : Type :=
| PGA
| SA (period : Q).

(** ** The coefficient table [COEFFS] (Table 4 of the paper) *)

(** One row of the table: the columns [c1] .. [c10], [sigma_t], [tau], [sigma]. *)
Record Coeffs : Type := coeff_row {
  c1 : R; c2 : R; c3 : R; c4 : R; c5 : R; c6 : R; c7 : R; c8 : R; c9 : R;
  c10 : R; sigma_t : R; tau : R; sigma : R
}.

(** The rows of [COEFFS], keyed by the period in the [imt] column.  The
    source table writes negative numbers with the Unicode minus sign U+2212;
    they are read here as negative numbers, as the spec reads them. *)
Definition COEFFS_rows : list (Q * Coeffs) := [
  (0%Q, coeff_row 9.6231 1.4232 (-0.1555) (-1.1316) (-0.0114) (-0.0024) (-0.0007) (-0.0835) 0.1589 0.0488 0.698 0.406 0.568);
  ((1 # 10)%Q, coeff_row 9.6981 1.3679 (-0.1423) (-0.9889) (-0.0135) (-0.0026) (-0.0017) (-0.1965) 0.1670 0.0020 0.806 0.468 0.656);
  ((2 # 10)%Q, coeff_row 10.0090 1.3620 (-0.1138) (-1.0371) (-0.0127) (-0.0032) (-0.0004) (-0.1547) 0.2861 0.0860 0.792 0.469 0.638);
  ((3 # 10)%Q, coeff_row 10.7033 1.4580 (-0.1187) (-1.2340) (-0.0106) (-0.0026) 0.0000 (-0.1014) 0.2659 0.0991 0.783 0.480 0.619);
  ((4 # 10)%Q, coeff_row 10.7701 1.5748 (-0.1439) (-1.3207) (-0.0093) (-0.0022) 0.0005 (-0.1076) 0.3062 0.1183 0.810 0.519 0.622);
  ((5 # 10)%Q, coeff_row 9.2327 1.6739 (-0.1664) (-1.0022) (-0.0100) (-0.0041) 0.0007 (-0.0259) 0.2576 0.0722 0.767 0.461 0.613);
  ((6 # 10)%Q, coeff_row 8.6445 1.7672 (-0.1925) (-0.8938) (-0.0099) (-0.0045) (-0.0004) (-0.1038) 0.2181 0.0179 0.740 0.429 0.603);
  ((7 # 10)%Q, coeff_row 8.7134 1.8500 (-0.1990) (-0.9780) (-0.0088) (-0.0039) 0.0002 (-0.1867) 0.1564 0.0006 0.735 0.426 0.599);
  ((8 # 10)%Q, coeff_row 9.0835 1.9066 (-0.2022) (-1.1044) (-0.0078) (-0.0031) 0.0005 (-0.2901) 0.0546 (-0.1019) 0.726 0.417 0.594);
  ((9 # 10)%Q, coeff_row 9.1274 1.9662 (-0.2465) (-1.1437) (-0.0074) (-0.0031) 0.0001 (-0.2804) 0.0884 (-0.0790) 0.719 0.403 0.596);
  ((10 # 10)%Q, coeff_row 8.9987 1.9964 (-0.2658) (-1.1226) (-0.0071) (-0.0031) (-0.0009) (-0.2992) 0.0739 (-0.0955) 0.715 0.400 0.592);
  ((12 # 10)%Q, coeff_row 8.0465 2.0432 (-0.2241) (-0.9654) (-0.0072) (-0.0041) (-0.0013) (-0.2681) 0.1476 (-0.0412) 0.713 0.392 0.595);
  ((14 # 10)%Q, coeff_row 7.0585 2.1148 (-0.2167) (-0.8011) (-0.0078) (-0.0049) (-0.0013) (-0.2566) 0.2009 (-0.0068) 0.714 0.392 0.597);
  ((16 # 10)%Q, coeff_row 6.8329 2.1668 (-0.2418) (-0.8036) (-0.0075) (-0.0047) (-0.0018) (-0.2268) 0.2272 0.0211 0.732 0.418 0.601);
  ((18 # 10)%Q, coeff_row 6.4292 2.1988 (-0.2468) (-0.7625) (-0.0073) (-0.0047) (-0.0020) (-0.2464) 0.2200 0.0082 0.745 0.427 0.611);
  ((20 # 10)%Q, coeff_row 6.3876 2.2151 (-0.2289) (-0.8004) (-0.0066) (-0.0043) (-0.0024) (-0.2767) 0.2134 (-0.0091) 0.744 0.425 0.611);
  ((25 # 10)%Q, coeff_row 4.4248 2.2541 (-0.2144) (-0.4280) (-0.0079) (-0.0061) (-0.0031) (-0.2924) 0.2108 (-0.0177) 0.750 0.420 0.622);
  ((30 # 10)%Q, coeff_row 4.5395 2.2812 (-0.2256) (-0.5340) (-0.0072) (-0.0054) (-0.0034) (-0.3066) 0.1840 (-0.0387) 0.765 0.436 0.629);
  ((35 # 10)%Q, coeff_row 4.7407 2.2803 (-0.2456) (-0.6250) (-0.0065) (-0.0045) (-0.0041) (-0.3728) 0.0918 (-0.1192) 0.778 0.436 0.645);
  ((40 # 10)%Q, coeff_row 4.4928 2.2796 (-0.2580) (-0.6215) (-0.0062) (-0.0041) (-0.0048) (-0.3763) 0.0512 (-0.1428) 0.792 0.443 0.657)
].

(** [self.COEFFS[imt]].  The lookup itself belongs to the framework's
    [CoeffsTable]; it is taken here as the spec describes it: [PGA] resolves to
    the row of period 0.0, an [SA] period to the row with that period, and
    anything else is a [KeyError] (no interpolation). *)
Definition COEFFS (imt : IMT) : result Coeffs :=
  let p := match imt with PGA => 0%Q | SA t => t end in
  match List.find (fun kr => Qeq_bool (fst kr) p) COEFFS_rows with
  | Some (_, C) => Ok C
  | None => Err KeyError
  end.

(** ** The methods of [VacareanuEtAl2015] *)

(** [_compute_magnitude_term] *)
Definition compute_magnitude_term (C : Coeffs) (mag : R) : M pyval :=
  record_call EvMagnitudeTerm ;;
  ret (PScalar (c1 C + c2 C * (mag - 6) + c3 C * (mag - 6) * (mag - 6))).

(** [_compute_distance_arc_term]:
    [C['c4'] * np.log(dists.rhypo) + C['c5'] * sites.backarc * dists.rhypo
     + C['c6'] * (1 - sites.backarc) * dists.rhypo], evaluated left to right. *)
Definition compute_distance_arc_term (C : Coeffs) (mag : R) (sites : Sites)
    (dists : Distances) : M pyval :=
  record_call EvDistanceArcTerm ;;
  r1 <- read (rhypo dists) ;;
  t1 <- lift (py_mul (PScalar (c4 C)) (np_log (arr r1))) ;;
  b1 <- read (backarc sites) ;;
  t2a <- lift (py_mul (PScalar (c5 C)) (arr b1)) ;;
  r2 <- read (rhypo dists) ;;
  t2 <- lift (py_mul t2a (arr r2)) ;;
  s12 <- lift (py_add t1 t2) ;;
  b2 <- read (backarc sites) ;;
  nb <- lift (py_sub (PScalar 1) (arr b2)) ;;
  t3a <- lift (py_mul (PScalar (c6 C)) nb) ;;
  r3 <- read (rhypo dists) ;;
  t3 <- lift (py_mul t3a (arr r3)) ;;
  lift (py_add s12 t3).

(** [_compute_focal_depth_term] *)
Definition compute_focal_depth_term (C : Coeffs) (rup : Rupture) : M pyval :=
  record_call EvFocalDepthTerm ;;
  ret (PScalar (c7 C * hypo_depth rup)).

(** [_compute_site_response_term] *)
Definition compute_site_response_term (C : Coeffs) (sites : Sites) : M pyval :=
  record_call EvSiteResponseTerm ;;
  let site_s := 0 in
  a0 <- read (vs30 sites) ;;
  vs_star <- alloc a0 ;;                                   (* sites.vs30.copy() *)
  a1 <- read vs_star ;;
  write vs_star (setitem_mask a1 (np_cmp Rgtb a1 800) 800) ;;  (* vs_star[vs_star > 800.0] = 800. *)
  a2 <- read vs_star ;;
  write vs_star (setitem_mask a2 (np_cmp Rltb a2 180) 180) ;;  (* vs_star[vs_star < 180.0] = 180. *)
  a3 <- read vs_star ;;
  cond <- lift (truth (np_cmp Rleb a3 360)) ;;             (* if vs_star <= 360.0: *)
  let site_b := if cond then 0 else 1 in
  let site_c := if cond then 1 else 0 in
  ret (PScalar (c8 C * site_b + c9 C * site_c + c10 C * site_s)).

(** The body of the loop of [_get_stddevs], from the given list on. *)
Fixpoint get_stddevs_loop (C : Coeffs) (stddev_types : list StdDev)
    (stddevs : list pyval) : result (list pyval) :=
  match stddev_types with
  | [] => Ok stddevs
  | stddev_type :: rest =>
      if negb (DEFINED_FOR_STANDARD_DEVIATION_TYPES stddev_type)
      then Err AssertionError
      else
        let appended :=
          match stddev_type with
          | TOTAL => [PScalar (sigma_t C)]
          | INTER_EVENT => [PScalar (tau C)]
          | INTRA_EVENT => [PScalar (sigma C)]
          | StdDevOther _ => []
          end in
        get_stddevs_loop C rest (stddevs ++ appended)
  end.

(** [_get_stddevs] *)
Definition get_stddevs (C : Coeffs) (stddev_types : list StdDev) : M (list pyval) :=
  record_call EvStddevs ;;
  lift (get_stddevs_loop C stddev_types []).

(** [get_mean_and_stddevs]: [mean = a + b + c + d] is evaluated as
    [((a + b) + c) + d], each operand just before its addition. *)
Definition get_mean_and_stddevs (sites : Sites) (rup : Rupture) (dists : Distances)
    (imt : IMT) (stddev_types : list StdDev) : M (pyval * list pyval) :=
  C <- lift (COEFFS imt) ;;
  t_mag <- compute_magnitude_term C (mag rup) ;;
  t_dist <- compute_distance_arc_term C (mag rup) sites dists ;;
  m2 <- lift (py_add t_mag t_dist) ;;
  t_depth <- compute_focal_depth_term C rup ;;
  m3 <- lift (py_add m2 t_depth) ;;
  t_site <- compute_site_response_term C sites ;;
  mean <- lift (py_add m3 t_site) ;;
  stddevs <- get_stddevs C stddev_types ;;
  ret (mean, stddevs).

(** ** Concrete inputs *)

(** A store holding one site collection and its distances: [vs30] at 0,
    [backarc] at 1, [rhypo] at 2. *)
Definition store_of (vs : list R) (bs : list bool) (rs : list R) : gmap nat ndarray :=
  <[0%nat := NFloat vs]> (<[1%nat := NBool bs]> (<[2%nat := NFloat rs]> ∅)).

Definition sites0 : Sites := mkSites 0 1.
Definition dists0 : Distances := mkDistances 2.

Definition state_of (vs : list R) (bs : list bool) (rs : list R) : state :=
  mkState (store_of vs bs rs) [].

(** ** Auxiliary functions for the statements and proofs *)

Definition rbind {A B} (r : result A) (k : A -> result B) : result B :=
  match r with
  | Ok a => k a
  | Err e => Err e
  end.

(** What the two masked assignments of the site term do to the copy. *)
Definition clip_array (a : ndarray) : ndarray :=
  let a1 := setitem_mask a (np_cmp Rgtb a 800) 800 in
  setitem_mask a1 (np_cmp Rltb a1 180) 180.

(** The same, for one value. *)
Definition clip (v : R) : R :=
  let v1 := if Rgtb v 800 then 800 else v in
  if Rltb v1 180 then 180 else v1.

(** The value of the distance/arc term once its two arrays are read. *)
Definition distance_arc_value (C : Coeffs) (ab ar : ndarray) : result pyval :=
  rbind (py_mul (PScalar (c4 C)) (np_log (arr ar))) (fun t1 =>
  rbind (py_mul (PScalar (c5 C)) (arr ab)) (fun t2a =>
  rbind (py_mul t2a (arr ar)) (fun t2 =>
  rbind (py_add t1 t2) (fun s12 =>
  rbind (py_sub (PScalar 1) (arr ab)) (fun nb =>
  rbind (py_mul (PScalar (c6 C)) nb) (fun t3a =>
  rbind (py_mul t3a (arr ar)) (fun t3 =>
  py_add s12 t3))))))).

(** The value of the site term once [sites.vs30] is read. *)
Definition site_response_value (C : Coeffs) (a : ndarray) : result pyval :=
  rbind (truth (np_cmp Rleb (clip_array a) 360)) (fun cond =>
  Ok (PScalar (c8 C * (if cond then 0 else 1) + c9 C * (if cond then 1 else 0) + c10 C * 0))).

(** The formula of the distance/arc term at one site. *)
Definition distance_at (C : Coeffs) (b : bool) (r : R) : R :=
  c4 C * ln r + c5 C * b2R b * r + c6 C * (1 - b2R b) * r.

(** The magnitude and focal-depth terms as numbers. *)
Definition magnitude_at (C : Coeffs) (m : R) : R :=
  c1 C + c2 C * (m - 6) + c3 C * (m - 6) * (m - 6).

Definition depth_at (C : Coeffs) (rup : Rupture) : R := c7 C * hypo_depth rup.

(** The site term the code computes for a single site of Vs30 [v]. *)
Definition site_at (C : Coeffs) (v : R) : R :=
  let cond := Rleb (clip v) 360 in
  c8 C * (if cond then 0 else 1) + c9 C * (if cond then 1 else 0) + c10 C * 0.

Fixpoint map3 {A B D E} (f : A -> B -> D -> E) (xs : list A) (ys : list B) (zs : list D)
    : list E :=
  match xs, ys, zs with
  | x :: xs', y :: ys', z :: zs' => f x y z :: map3 f xs' ys' zs'
  | _, _, _ => []
  end.

(** The entry [_get_stddevs] appends for a supported kind. *)
Definition stddev_of (C : Coeffs) (t : StdDev) : pyval :=
  match t with
  | TOTAL => PScalar (sigma_t C)
  | INTER_EVENT => PScalar (tau C)
  | INTRA_EVENT => PScalar (sigma C)
  | StdDevOther _ => PScalar 0
  end.

(** ** Basic lemmas *)

Lemma Rgtb_true x y : y < x -> Rgtb x y = true.
Proof. unfold Rgtb; destruct (Rlt_dec y x); [reflexivity | contradiction]. Qed.

Lemma Rgtb_false x y : x <= y -> Rgtb x y = false.
Proof. unfold Rgtb; destruct (Rlt_dec y x); [lra | reflexivity]. Qed.

Lemma Rltb_true x y : x < y -> Rltb x y = true.
Proof. unfold Rltb; destruct (Rlt_dec x y); [reflexivity | contradiction]. Qed.

Lemma Rltb_false x y : y <= x -> Rltb x y = false.
Proof. unfold Rltb; destruct (Rlt_dec x y); [lra | reflexivity]. Qed.

Lemma Rleb_true x y : x <= y -> Rleb x y = true.
Proof. unfold Rleb; destruct (Rle_dec x y); [reflexivity | contradiction]. Qed.

Lemma Rleb_false x y : y < x -> Rleb x y = false.
Proof. unfold Rleb; destruct (Rle_dec x y); [lra | reflexivity]. Qed.

(** Runs a program over a store whose lookups are the hypotheses [H1], [H2],
    splitting on the intermediate results. *)
Ltac run_prog H1 H2 :=
  repeat (cbn [heap trace fst snd] in *;
          first [ rewrite H1 | rewrite H2
                | match goal with
                  | |- context [match ?r with Ok _ => _ | Err _ => _ end] =>
                      let E := fresh "E" in destruct r eqn:E
                  end ]).

Lemma magnitude_run C m s :
  compute_magnitude_term C m s =
  (mkState (heap s) (trace s ++ [EvMagnitudeTerm]), Ok (PScalar (magnitude_at C m))).
Proof. reflexivity. Qed.

Lemma depth_run C rup s :
  compute_focal_depth_term C rup s =
  (mkState (heap s) (trace s ++ [EvFocalDepthTerm]), Ok (PScalar (depth_at C rup))).
Proof. reflexivity. Qed.

Lemma distance_run C m sites dists s ab ar :
  heap s !! backarc sites = Some ab ->
  heap s !! rhypo dists = Some ar ->
  compute_distance_arc_term C m sites dists s =
  (mkState (heap s) (trace s ++ [EvDistanceArcTerm]), distance_arc_value C ab ar).
Proof.
  intros Hb Hr.
  unfold compute_distance_arc_term, distance_arc_value, bind, record_call, read, lift, rbind.
  run_prog Hr Hb; reflexivity.
Qed.

Lemma site_run C sites s a0 :
  heap s !! vs30 sites = Some a0 ->
  compute_site_response_term C sites s =
  (mkState (<[fresh (dom (heap s)) := clip_array a0]> (heap s))
           (trace s ++ [EvSiteResponseTerm]),
   site_response_value C a0).
Proof.
  intros H0.
  unfold compute_site_response_term, site_response_value, bind, record_call, read,
    alloc, write, lift, ret, rbind, clip_array.
  cbn [heap trace]. rewrite H0. cbn [heap trace].
  rewrite !lookup_insert_eq. cbn [heap trace]. rewrite !insert_insert_eq.
  destruct (truth _); reflexivity.
Qed.

Lemma site_run_missing C sites s :
  heap s !! vs30 sites = None ->
  compute_site_response_term C sites s =
  (mkState (heap s) (trace s ++ [EvSiteResponseTerm]), Err AttributeError).
Proof.
  intros H0. unfold compute_site_response_term, bind, record_call, read.
  cbn [heap trace]. rewrite H0. reflexivity.
Qed.

Lemma COEFFS_PGA :
  COEFFS PGA = Ok (coeff_row 9.6231 1.4232 (-0.1555) (-1.1316) (-0.0114) (-0.0024)
                     (-0.0007) (-0.0835) 0.1589 0.0488 0.698 0.406 0.568).
Proof. reflexivity. Qed.

Lemma clip_400 : clip_array (NFloat [400]) = NFloat [400].
Proof.
  unfold clip_array, setitem_mask, np_cmp, as_floats; cbn.
  rewrite Rgtb_false by lra. cbn. rewrite Rltb_false by lra. reflexivity.
Qed.

(** C1: the concrete scenario of the spec: PGA, M6.0, a depth of 100 km, one
    fore-arc site of Vs30 = 400 m/s at a hypocentral distance of 50 km.  The
    mean is 9.6231 + (-1.1316 ln 50 - 0.0024 * 50) - 0.07 - 0.0835 and the
    TOTAL standard deviation is [0.698]. *)
Theorem C1_pga_single_forearc_site :
  snd (get_mean_and_stddevs sites0 (mkRupture 6 100) dists0 PGA [TOTAL]
         (state_of [400] [false] [50]))
  = Ok (PArr [9.6231 + (-1.1316 * ln 50 + -0.0024 * 50) + -0.07 + -0.0835],
        [PScalar 0.698]).
Proof.
  unfold get_mean_and_stddevs, bind, lift. rewrite COEFFS_PGA.
  rewrite magnitude_run. cbn [heap trace].
  rewrite (distance_run _ _ _ _ _ (NBool [false]) (NFloat [50])) by reflexivity.
  rewrite depth_run. cbn [heap trace].
  rewrite (site_run _ _ _ (NFloat [400])) by reflexivity.
  unfold site_response_value. rewrite clip_400.
  unfold np_cmp, as_floats. cbn [map]. rewrite (Rleb_false 400 360) by lra.
  cbn. unfold magnitude_at, depth_at, b2R. cbn [c1 c2 c3 c4 c5 c6 c7 c8 c9 c10 mag hypo_depth].
  match goal with
  | |- Ok (PArr [?x], _) = Ok (PArr [?y], _) => replace x with y by lra
  end.
  reflexivity.
Qed.

Lemma broadcast_scalar_l f x ys :
  broadcast2 f (PScalar x) (PArr ys) = Ok (PArr (map (f x) ys)).
Proof. reflexivity. Qed.

Lemma broadcast_same_length f xs ys :
  length xs = length ys ->
  broadcast2 f (PArr xs) (PArr ys) = Ok (PArr (zip_with f xs ys)).
Proof. intros H. cbn. rewrite H, Nat.eqb_refl. reflexivity. Qed.

Lemma distance_zip C bs rs :
  length bs = length rs ->
  zip_with Rplus
    (zip_with Rplus (map (Rmult (c4 C)) (map ln rs))
       (zip_with Rmult (map (Rmult (c5 C)) (map b2R bs)) rs))
    (zip_with Rmult (map (Rmult (c6 C)) (map (Rminus 1) (map b2R bs))) rs)
  = zip_with (distance_at C) bs rs.
Proof.
  revert rs. induction bs as [|b bs IH]; intros [|r rs] H; cbn in *; try lia.
  - reflexivity.
  - rewrite IH by lia. reflexivity.
Qed.

Lemma distance_value_same_length C bs rs :
  length bs = length rs ->
  distance_arc_value C (NBool bs) (NFloat rs) = Ok (PArr (zip_with (distance_at C) bs rs)).
Proof.
  intros H. unfold distance_arc_value, arr, as_floats, np_log, py_mul, py_add, py_sub.
  rewrite !broadcast_scalar_l. cbn [rbind].
  rewrite broadcast_same_length by (rewrite ?length_map; lia). cbn [rbind].
  rewrite broadcast_same_length
    by (rewrite ?length_map, ?length_zip_with, ?length_map; lia). cbn [rbind].
  rewrite broadcast_scalar_l. cbn [rbind].
  rewrite broadcast_same_length by (rewrite ?length_map; lia). cbn [rbind].
  rewrite broadcast_same_length
    by (rewrite ?length_zip_with, ?length_map, ?length_zip_with, ?length_map; lia).
  rewrite distance_zip by exact H. reflexivity.
Qed.

Lemma clip_array_float vs : clip_array (NFloat vs) = NFloat (map clip vs).
Proof.
  unfold clip_array, setitem_mask, np_cmp, as_floats, clip.
  induction vs as [|v vs IH]; [reflexivity|].
  cbn. injection IH as IH. rewrite IH. reflexivity.
Qed.

Lemma site_value_multi C vs :
  (2 <= length vs)%nat ->
  site_response_value C (NFloat vs) = Err ExnAmbiguousTruth.
Proof.
  intros H. unfold site_response_value. rewrite clip_array_float.
  unfold np_cmp, as_floats.
  destruct vs as [|v1 [|v2 vs]]; cbn in *; [lia | lia | reflexivity].
Qed.

(** A batch of two or more sites whose arrays are otherwise well formed
    stops in the site term, at [if vs_star <= 360.0:]. *)
Lemma mean_multi_site_raises rup imt stddev_types C vs bs rs :
  COEFFS imt = Ok C ->
  (2 <= length vs)%nat ->
  length bs = length rs ->
  snd (get_mean_and_stddevs sites0 rup dists0 imt stddev_types (state_of vs bs rs))
  = Err ExnAmbiguousTruth.
Proof.
  intros HC Hv Hbr.
  unfold get_mean_and_stddevs, bind, lift. rewrite HC.
  rewrite magnitude_run. cbn [heap trace].
  rewrite (distance_run _ _ _ _ _ (NBool bs) (NFloat rs)) by reflexivity.
  rewrite distance_value_same_length by exact Hbr.
  cbn [py_add broadcast2].
  rewrite depth_run. cbn [heap trace py_add broadcast2].
  rewrite (site_run _ _ _ (NFloat vs)) by reflexivity.
  rewrite site_value_multi by exact Hv. reflexivity.
Qed.

(** C2 (code_bug): two sites of Vs30 200 and 400 m/s, which the spec
    classifies as C and B, make the call raise a ValueError (the truth value
    of a two-element array) instead of classifying each site. *)
Theorem C2_two_site_batch_raises :
  snd (get_mean_and_stddevs sites0 (mkRupture 6 100) dists0 PGA [TOTAL]
         (state_of [200; 400] [false; false] [50; 60]))
  = Err ExnAmbiguousTruth.
Proof. eapply mean_multi_site_raises; [exact COEFFS_PGA | cbn; lia | reflexivity]. Qed.

Lemma broadcast_scalar_r f xs y :
  broadcast2 f (PArr xs) (PScalar y) = Ok (PArr (map (fun x => f x y) xs)).
Proof. reflexivity. Qed.

Lemma stddevs_run C stddev_types s :
  get_stddevs C stddev_types s =
  (mkState (heap s) (trace s ++ [EvStddevs]), get_stddevs_loop C stddev_types []).
Proof. reflexivity. Qed.

(** The outcome of a call whose three arrays are present, [backarc] and
    [rhypo] of the same length. *)
Lemma mean_run_same_length sites rup dists imt stddev_types C s vs bs rs :
  COEFFS imt = Ok C ->
  heap s !! vs30 sites = Some (NFloat vs) ->
  heap s !! backarc sites = Some (NBool bs) ->
  heap s !! rhypo dists = Some (NFloat rs) ->
  length bs = length rs ->
  snd (get_mean_and_stddevs sites rup dists imt stddev_types s) =
  rbind (site_response_value C (NFloat vs)) (fun t_site =>
  rbind (py_add (PArr (map (fun x => x + depth_at C rup)
                         (map (Rplus (magnitude_at C (mag rup)))
                            (zip_with (distance_at C) bs rs)))) t_site) (fun mean =>
  rbind (get_stddevs_loop C stddev_types []) (fun stddevs => Ok (mean, stddevs)))).
Proof.
  intros HC Hv Hb Hr Hbr.
  unfold get_mean_and_stddevs, bind, lift. rewrite HC.
  rewrite magnitude_run. cbn [heap trace].
  rewrite (distance_run _ _ _ _ _ (NBool bs) (NFloat rs)) by assumption.
  rewrite distance_value_same_length by exact Hbr.
  unfold py_add at 1. rewrite broadcast_scalar_l.
  rewrite depth_run. cbn [heap trace].
  unfold py_add at 1. rewrite broadcast_scalar_r.
  rewrite (site_run _ _ _ (NFloat vs)) by assumption.
  destruct (site_response_value C (NFloat vs)) as [t_site|e]; cbn [rbind snd]; [|reflexivity].
  destruct (py_add _ t_site) as [mean|e]; cbn [rbind snd]; [|reflexivity].
  rewrite stddevs_run. cbn [lift].
  destruct (get_stddevs_loop C stddev_types []); reflexivity.
Qed.

Lemma site_value_single C v :
  site_response_value C (NFloat [v]) = Ok (PScalar (site_at C v)).
Proof. unfold site_response_value. rewrite clip_array_float. reflexivity. Qed.

(** C3: the distance/arc term is [c4 ln(rhypo) + c5 backarc rhypo
    + c6 (1 - backarc) rhypo] site by site; so the linear slope is [c5] at a
    back-arc site and [c6] at a fore-arc or unknown one. *)
Theorem C3_distance_arc_term_per_site C m sites dists s bs rs :
  heap s !! backarc sites = Some (NBool bs) ->
  heap s !! rhypo dists = Some (NFloat rs) ->
  length bs = length rs ->
  snd (compute_distance_arc_term C m sites dists s)
    = Ok (PArr (zip_with (fun b r => c4 C * ln r + c5 C * b2R b * r
                                     + c6 C * (1 - b2R b) * r) bs rs))
  /\ (forall r, distance_at C true r = c4 C * ln r + c5 C * r)
  /\ (forall r, distance_at C false r = c4 C * ln r + c6 C * r).
Proof.
  intros Hb Hr Hbr. split; [|split].
  - rewrite (distance_run _ _ _ _ _ _ _ Hb Hr). cbn [snd].
    rewrite distance_value_same_length by exact Hbr. reflexivity.
  - intros r. unfold distance_at, b2R. lra.
  - intros r. unfold distance_at, b2R. lra.
Qed.

Lemma C3_distance_arc_term_per_site_witness :
  snd (compute_distance_arc_term
         (coeff_row 9.6231 1.4232 (-0.1555) (-1.1316) (-0.0114) (-0.0024)
            (-0.0007) (-0.0835) 0.1589 0.0488 0.698 0.406 0.568)
         6 sites0 dists0 (state_of [400; 300] [true; false] [50; 60]))
    = Ok (PArr [-1.1316 * ln 50 + -0.0114 * 1 * 50 + -0.0024 * (1 - 1) * 50;
                -1.1316 * ln 60 + -0.0114 * 0 * 60 + -0.0024 * (1 - 0) * 60]).
Proof.
  destruct (C3_distance_arc_term_per_site
              (coeff_row 9.6231 1.4232 (-0.1555) (-1.1316) (-0.0114) (-0.0024)
                 (-0.0007) (-0.0835) 0.1589 0.0488 0.698 0.406 0.568)
              6 sites0 dists0 (state_of [400; 300] [true; false] [50; 60])
              [true; false] [50; 60])
    as [H _]; [reflexivity | reflexivity | reflexivity |].
  rewrite H. reflexivity.
Defined.

(** C4: whenever the call returns, its mean is, site by site, the sum of the
    magnitude term, the distance/arc term, the focal-depth term and the site
    term, the first and third being the same at every site. *)
Theorem C4_mean_is_sum_of_four_terms sites rup dists imt stddev_types C s vs bs rs
    mean stddevs :
  COEFFS imt = Ok C ->
  heap s !! vs30 sites = Some (NFloat vs) ->
  heap s !! backarc sites = Some (NBool bs) ->
  heap s !! rhypo dists = Some (NFloat rs) ->
  length vs = length bs ->
  length bs = length rs ->
  snd (get_mean_and_stddevs sites rup dists imt stddev_types s) = Ok (mean, stddevs) ->
  mean = PArr (map3 (fun v b r => magnitude_at C (mag rup) + distance_at C b r
                                  + depth_at C rup + site_at C v) vs bs rs).
Proof.
  intros HC Hv Hb Hr Hvb Hbr Hok.
  rewrite (mean_run_same_length _ _ _ _ _ C _ vs bs rs) in Hok by assumption.
  destruct vs as [|v [|v2 vs]].
  - destruct bs; [|discriminate]. destruct rs; [|discriminate].
    unfold site_response_value in Hok. cbn in Hok.
    destruct (get_stddevs_loop C stddev_types []); cbn in Hok; [|discriminate].
    injection Hok as <- <-. reflexivity.
  - destruct bs as [|b [|]]; try discriminate. destruct rs as [|r [|]]; try discriminate.
    rewrite site_value_single in Hok. cbn in Hok.
    destruct (get_stddevs_loop C stddev_types []); cbn in Hok; [|discriminate].
    injection Hok as <- <-. reflexivity.
  - rewrite site_value_multi in Hok by (cbn; lia). discriminate.
Qed.

(** The PGA row of the table. *)
Lemma one_site_pga_run rup stddev_types v b r :
  snd (get_mean_and_stddevs sites0 rup dists0 PGA stddev_types (state_of [v] [b] [r])) =
  rbind (get_stddevs_loop
           (coeff_row 9.6231 1.4232 (-0.1555) (-1.1316) (-0.0114) (-0.0024)
              (-0.0007) (-0.0835) 0.1589 0.0488 0.698 0.406 0.568) stddev_types [])
    (fun stddevs =>
       let C := coeff_row 9.6231 1.4232 (-0.1555) (-1.1316) (-0.0114) (-0.0024)
                  (-0.0007) (-0.0835) 0.1589 0.0488 0.698 0.406 0.568 in
       Ok (PArr [magnitude_at C (mag rup) + distance_at C b r + depth_at C rup + site_at C v],
           stddevs)).
Proof.
  erewrite (mean_run_same_length _ _ _ _ _ _ _ [v] [b] [r]);
    [| exact COEFFS_PGA | reflexivity | reflexivity | reflexivity | reflexivity].
  rewrite site_value_single. reflexivity.
Qed.

Lemma C4_mean_is_sum_of_four_terms_witness :
  exists mean stddevs,
    snd (get_mean_and_stddevs sites0 (mkRupture 6.5 120) dists0 PGA [TOTAL]
           (state_of [250] [true] [80])) = Ok (mean, stddevs) /\
    mean = PArr (map3 (fun v b r =>
                   magnitude_at (coeff_row 9.6231 1.4232 (-0.1555) (-1.1316) (-0.0114)
                                   (-0.0024) (-0.0007) (-0.0835) 0.1589 0.0488 0.698
                                   0.406 0.568) 6.5
                   + distance_at (coeff_row 9.6231 1.4232 (-0.1555) (-1.1316) (-0.0114)
                                   (-0.0024) (-0.0007) (-0.0835) 0.1589 0.0488 0.698
                                   0.406 0.568) b r
                   + depth_at (coeff_row 9.6231 1.4232 (-0.1555) (-1.1316) (-0.0114)
                                 (-0.0024) (-0.0007) (-0.0835) 0.1589 0.0488 0.698
                                 0.406 0.568) (mkRupture 6.5 120)
                   + site_at (coeff_row 9.6231 1.4232 (-0.1555) (-1.1316) (-0.0114)
                                (-0.0024) (-0.0007) (-0.0835) 0.1589 0.0488 0.698
                                0.406 0.568) v) [250] [true] [80]).
Proof.
  rewrite one_site_pga_run. cbn [get_stddevs_loop rbind].
  do 2 eexists. split; [reflexivity|].
  apply (C4_mean_is_sum_of_four_terms sites0 (mkRupture 6.5 120) dists0 PGA [TOTAL] _
           (state_of [250] [true] [80]) [250] [true] [80] _ [PScalar 0.698]);
    [exact COEFFS_PGA | reflexivity | reflexivity | reflexivity | reflexivity
    | reflexivity |].
  rewrite one_site_pga_run. reflexivity.
Defined.

(** C5 (code_bug): with one site and [TOTAL; INTRA_EVENT] requested, the
    standard deviations come back as the two Python floats [sigma_t] and
    [sigma] of the row, not as arrays of length N = 1. *)
Theorem C5_stddevs_are_scalars :
  exists mean,
    snd (get_mean_and_stddevs sites0 (mkRupture 6 100) dists0 PGA [TOTAL; INTRA_EVENT]
           (state_of [400] [false] [50]))
    = Ok (PArr [mean], [PScalar 0.698; PScalar 0.568]).
Proof. rewrite one_site_pga_run. eexists. reflexivity. Qed.

(** ** Effects of the methods on the store and the trace *)

Lemma broadcast_err f u v e : broadcast2 f u v = Err e -> e = ExnBroadcast.
Proof.
  destruct u as [x|xs], v as [y|ys]; cbn; try discriminate.
  destruct (length xs =? length ys); [discriminate|].
  destruct xs as [|x1 [|x2 xs]], ys as [|y1 [|y2 ys]]; cbn; congruence.
Qed.

Ltac py_errors :=
  unfold py_mul, py_add, py_sub in *;
  repeat match goal with
  | E : broadcast2 _ _ _ = Err _ |- _ => apply broadcast_err in E; subst
  end.

Lemma distance_value_no_assert C ab ar :
  distance_arc_value C ab ar <> Err AssertionError.
Proof.
  unfold distance_arc_value, rbind.
  repeat case_match; intros Hc; try discriminate; py_errors; congruence.
Qed.

Lemma distance_effect C m sites dists s :
  fst (compute_distance_arc_term C m sites dists s)
    = mkState (heap s) (trace s ++ [EvDistanceArcTerm]) /\
  snd (compute_distance_arc_term C m sites dists s) <> Err AssertionError.
Proof.
  destruct (heap s !! backarc sites) as [ab|] eqn:Hb;
  destruct (heap s !! rhypo dists) as [ar|] eqn:Hr.
  - rewrite (distance_run _ _ _ _ _ _ _ Hb Hr). split; [reflexivity|].
    apply distance_value_no_assert.
  - unfold compute_distance_arc_term, bind, record_call, read, lift.
    run_prog Hr Hb; split; try reflexivity; intros H; try discriminate; py_errors; congruence.
  - unfold compute_distance_arc_term, bind, record_call, read, lift.
    run_prog Hr Hb; split; try reflexivity; intros H; try discriminate; py_errors; congruence.
  - unfold compute_distance_arc_term, bind, record_call, read, lift.
    run_prog Hr Hb; split; try reflexivity; intros H; try discriminate; py_errors; congruence.
Qed.

Lemma site_effect C sites s :
  trace (fst (compute_site_response_term C sites s)) = trace s ++ [EvSiteResponseTerm] /\
  heap s ⊆ heap (fst (compute_site_response_term C sites s)) /\
  snd (compute_site_response_term C sites s) <> Err AssertionError.
Proof.
  destruct (heap s !! vs30 sites) as [a0|] eqn:Hv.
  - rewrite (site_run _ _ _ _ Hv). cbn [fst snd heap trace].
    split; [reflexivity | split].
    + apply insert_subseteq, not_elem_of_dom, is_fresh.
    + unfold site_response_value, rbind, truth. repeat case_match; congruence.
  - rewrite (site_run_missing _ _ _ Hv). cbn. split; [reflexivity | split]; [done | discriminate].
Qed.

Lemma loop_rejects C stddev_types acc :
  (exists t, In t stddev_types /\ DEFINED_FOR_STANDARD_DEVIATION_TYPES t = false) ->
  get_stddevs_loop C stddev_types acc = Err AssertionError.
Proof.
  revert acc. induction stddev_types as [|t0 rest IH]; intros acc [t [Hin Ht]].
  - destruct Hin.
  - cbn. destruct Hin as [<- | Hin].
    + rewrite Ht. reflexivity.
    + destruct (DEFINED_FOR_STANDARD_DEVIATION_TYPES t0); cbn; [|reflexivity].
      apply IH. eauto.
Qed.

Lemma bind_ok {A B} (c : M A) (k : A -> M B) s s1 a :
  c s = (s1, Ok a) -> bind c k s = k a s1.
Proof. intros H. unfold bind. rewrite H. reflexivity. Qed.

Lemma bind_err {A B} (c : M A) (k : A -> M B) s s1 e :
  c s = (s1, Err e) -> bind c k s = (s1, Err e).
Proof. intros H. unfold bind. rewrite H. reflexivity. Qed.

Lemma COEFFS_err imt e : COEFFS imt = Err e -> e = KeyError.
Proof. unfold COEFFS. destruct (List.find _ _) as [[? ?]|]; congruence. Qed.

Lemma mean_effect sites rup dists imt stddev_types s :
  heap s ⊆ heap (fst (get_mean_and_stddevs sites rup dists imt stddev_types s)) /\
  ((snd (get_mean_and_stddevs sites rup dists imt stddev_types s) = Err AssertionError \/
    exists v, snd (get_mean_and_stddevs sites rup dists imt stddev_types s) = Ok v) ->
   trace (fst (get_mean_and_stddevs sites rup dists imt stddev_types s))
   = trace s ++ [EvMagnitudeTerm; EvDistanceArcTerm; EvFocalDepthTerm;
                 EvSiteResponseTerm; EvStddevs]) /\
  (forall v, snd (get_mean_and_stddevs sites rup dists imt stddev_types s) = Ok v ->
   exists C, COEFFS imt = Ok C /\ get_stddevs_loop C stddev_types [] = Ok (snd v)).
Proof.
  unfold get_mean_and_stddevs.
  destruct (COEFFS imt) as [C|e] eqn:HC.
  2:{ pose proof (COEFFS_err _ _ HC). subst e.
      rewrite (bind_err _ _ s s KeyError) by reflexivity.
      split; [done|]. split.
      - intros [H|[v H]]; discriminate.
      - intros v H; discriminate. }
  rewrite (bind_ok _ _ s s C) by reflexivity. cbv beta.
  rewrite (bind_ok _ _ s _ _ (magnitude_run _ _ _)). cbv beta.
  set (s1 := mkState (heap s) (trace s ++ [EvMagnitudeTerm])).
  destruct (distance_effect C (mag rup) sites dists s1) as [Hd1 Hd2].
  destruct (compute_distance_arc_term C (mag rup) sites dists s1) as [s2 [t_dist|e]] eqn:Ed;
    cbn [fst snd] in Hd1, Hd2; subst s2.
  2:{ rewrite (bind_err _ _ _ _ _ Ed).
      split; [done|]. split.
      - intros [H|[v H]]; cbn in H; [injection H as ->; congruence | discriminate].
      - intros v H; discriminate. }
  rewrite (bind_ok _ _ _ _ _ Ed). cbv beta.
  destruct (py_add (PScalar (magnitude_at C (mag rup))) t_dist) as [m2|e] eqn:Ea.
  2:{ rewrite (bind_err _ _ _ _ e) by reflexivity.
      split; [done|]. split.
      - intros [H|[v H]]; cbn in H; [injection H as ->; py_errors; congruence | discriminate].
      - intros v H; discriminate. }
  rewrite (bind_ok _ _ _ _ m2) by reflexivity. cbv beta.
  rewrite (bind_ok _ _ _ _ _ (depth_run _ _ _)). cbv beta. cbn [heap trace].
  destruct (py_add m2 (PScalar (depth_at C rup))) as [m3|e] eqn:Eb.
  2:{ rewrite (bind_err _ _ _ _ e) by reflexivity.
      split; [done|]. split.
      - intros [H|[v H]]; cbn in H; [injection H as ->; py_errors; congruence | discriminate].
      - intros v H; discriminate. }
  rewrite (bind_ok _ _ _ _ m3) by reflexivity. cbv beta.
  set (s3 := mkState (heap s) (((trace s ++ [EvMagnitudeTerm]) ++ [EvDistanceArcTerm])
                               ++ [EvFocalDepthTerm])).
  destruct (site_effect C sites s3) as [Hs1 [Hs2 Hs3]].
  destruct (compute_site_response_term C sites s3) as [s4 [t_site|e]] eqn:Es;
    cbn [fst snd] in Hs1, Hs2, Hs3.
  2:{ rewrite (bind_err _ _ _ _ _ Es).
      split; [done|]. split.
      - intros [H|[v H]]; cbn in H; [injection H as ->; congruence | discriminate].
      - intros v H; discriminate. }
  rewrite (bind_ok _ _ _ _ _ Es). cbv beta.
  destruct (py_add m3 t_site) as [mean|e] eqn:Ec.
  2:{ rewrite (bind_err _ _ _ _ e) by reflexivity.
      split; [done|]. split.
      - intros [H|[v H]]; cbn in H; [injection H as ->; py_errors; congruence | discriminate].
      - intros v H; discriminate. }
  rewrite (bind_ok _ _ _ _ mean) by reflexivity. cbv beta.
  unfold bind. rewrite !stddevs_run. unfold lift.
  destruct (get_stddevs_loop C stddev_types []) as [sds|e] eqn:Hl; cbn.
  - split; [done|]. split.
    + intros _. rewrite Hs1. cbn. rewrite <- !app_assoc. reflexivity.
    + intros v H. injection H as <-. eauto.
  - split; [done|]. split.
    + intros _. rewrite Hs1. cbn. rewrite <- !app_assoc. reflexivity.
    + intros v H; discriminate.
Qed.

(** The outcome of a call whose three arrays are present. *)
Lemma mean_run sites rup dists imt stddev_types C s av ab ar :
  COEFFS imt = Ok C ->
  heap s !! vs30 sites = Some av ->
  heap s !! backarc sites = Some ab ->
  heap s !! rhypo dists = Some ar ->
  snd (get_mean_and_stddevs sites rup dists imt stddev_types s) =
  rbind (distance_arc_value C ab ar) (fun t_dist =>
  rbind (py_add (PScalar (magnitude_at C (mag rup))) t_dist) (fun m2 =>
  rbind (py_add m2 (PScalar (depth_at C rup))) (fun m3 =>
  rbind (site_response_value C av) (fun t_site =>
  rbind (py_add m3 t_site) (fun mean =>
  rbind (get_stddevs_loop C stddev_types []) (fun stddevs => Ok (mean, stddevs))))))).
Proof.
  intros HC Hv Hb Hr.
  unfold get_mean_and_stddevs, bind, lift. rewrite HC.
  rewrite magnitude_run. cbn [heap trace].
  rewrite (distance_run _ _ _ _ _ ab ar) by assumption.
  destruct (distance_arc_value C ab ar) as [t_dist|e]; cbn [rbind snd]; [|reflexivity].
  destruct (py_add _ t_dist) as [m2|e]; cbn [rbind snd]; [|reflexivity].
  rewrite depth_run. cbn [heap trace].
  destruct (py_add m2 _) as [m3|e]; cbn [rbind snd]; [|reflexivity].
  rewrite (site_run _ _ _ av) by assumption.
  destruct (site_response_value C av) as [t_site|e]; cbn [rbind snd]; [|reflexivity].
  destruct (py_add m3 t_site) as [mean|e]; cbn [rbind snd]; [|reflexivity].
  rewrite stddevs_run. cbn [lift].
  destruct (get_stddevs_loop C stddev_types []); reflexivity.
Qed.

Lemma broadcast_mismatch f xs ys :
  length xs <> length ys -> length xs <> 1%nat -> length ys <> 1%nat ->
  broadcast2 f (PArr xs) (PArr ys) = Err ExnBroadcast.
Proof.
  intros H1 H2 H3. cbn.
  destruct (Nat.eqb_spec (length xs) (length ys)); [contradiction|].
  destruct xs as [|x1 [|x2 xs]], ys as [|y1 [|y2 ys]]; cbn in *; try lia; reflexivity.
Qed.

(** C6 (counterexample): asking for an unsupported kind on a well-formed
    one-site input fails with an [AssertionError], but only after the
    magnitude, distance/arc, focal-depth and site-response terms have all
    been evaluated. *)
Lemma C6_mean_terms_evaluated_before_failure :
  snd (get_mean_and_stddevs sites0 (mkRupture 6 100) dists0 PGA
         [StdDevOther "Event specific"%string] (state_of [400] [false] [50]))
    = Err AssertionError /\
  trace (fst (get_mean_and_stddevs sites0 (mkRupture 6 100) dists0 PGA
                [StdDevOther "Event specific"%string] (state_of [400] [false] [50])))
    = [EvMagnitudeTerm; EvDistanceArcTerm; EvFocalDepthTerm; EvSiteResponseTerm;
       EvStddevs].
Proof.
  assert (H : snd (get_mean_and_stddevs sites0 (mkRupture 6 100) dists0 PGA
                     [StdDevOther "Event specific"%string] (state_of [400] [false] [50]))
              = Err AssertionError)
    by (rewrite one_site_pga_run; reflexivity).
  split; [exact H|].
  destruct (mean_effect sites0 (mkRupture 6 100) dists0 PGA
              [StdDevOther "Event specific"%string] (state_of [400] [false] [50]))
    as [_ [Ht _]].
  rewrite Ht by (left; exact H). reflexivity.
Qed.

(** C6 (amended): a call asking for a kind outside TOTAL, INTER_EVENT and
    INTRA_EVENT always fails; when it fails on that assertion, the four mean
    terms have all been evaluated before it. *)
Theorem C6_unsupported_kind_fails_after_mean_terms sites rup dists imt stddev_types s :
  (exists t, In t stddev_types /\ DEFINED_FOR_STANDARD_DEVIATION_TYPES t = false) ->
  (exists e, snd (get_mean_and_stddevs sites rup dists imt stddev_types s) = Err e) /\
  (snd (get_mean_and_stddevs sites rup dists imt stddev_types s) = Err AssertionError ->
   trace (fst (get_mean_and_stddevs sites rup dists imt stddev_types s))
   = trace s ++ [EvMagnitudeTerm; EvDistanceArcTerm; EvFocalDepthTerm;
                 EvSiteResponseTerm; EvStddevs]).
Proof.
  intros Hbad.
  destruct (mean_effect sites rup dists imt stddev_types s) as [_ [Ht Hok]].
  split.
  - destruct (snd (get_mean_and_stddevs sites rup dists imt stddev_types s))
      as [v|e] eqn:Hr; [|eauto].
    destruct (Hok v eq_refl) as [C [_ HC]].
    rewrite (loop_rejects C stddev_types [] Hbad) in HC. discriminate.
  - intros H. apply Ht. left. exact H.
Qed.

Lemma C6_unsupported_kind_fails_after_mean_terms_witness :
  (exists e, snd (get_mean_and_stddevs sites0 (mkRupture 7 90) dists0 PGA
                    [TOTAL; StdDevOther "Event specific"%string]
                    (state_of [300] [true] [120])) = Err e) /\
  (snd (get_mean_and_stddevs sites0 (mkRupture 7 90) dists0 PGA
          [TOTAL; StdDevOther "Event specific"%string] (state_of [300] [true] [120]))
     = Err AssertionError ->
   trace (fst (get_mean_and_stddevs sites0 (mkRupture 7 90) dists0 PGA
                 [TOTAL; StdDevOther "Event specific"%string]
                 (state_of [300] [true] [120])))
   = [] ++ [EvMagnitudeTerm; EvDistanceArcTerm; EvFocalDepthTerm;
            EvSiteResponseTerm; EvStddevs]).
Proof.
  apply (C6_unsupported_kind_fails_after_mean_terms sites0 (mkRupture 7 90) dists0 PGA
           [TOTAL; StdDevOther "Event specific"%string] (state_of [300] [true] [120])).
  exists (StdDevOther "Event specific"%string). split; [right; left; reflexivity | reflexivity].
Defined.

(** C7 (counterexample): one Vs30 value, one back-arc flag and two
    hypocentral distances: the call does not fail, it returns a mean of
    length 2. *)
Lemma C7_mismatched_lengths_return_a_result :
  exists m1 m2 stddevs,
    snd (get_mean_and_stddevs sites0 (mkRupture 6 100) dists0 PGA [TOTAL]
           (state_of [400] [false] [50; 60]))
    = Ok (PArr [m1; m2], stddevs).
Proof.
  erewrite (mean_run _ _ _ _ _ _ _ (NFloat [400]) (NBool [false]) (NFloat [50; 60]));
    [| exact COEFFS_PGA | reflexivity | reflexivity | reflexivity].
  rewrite site_value_single. cbn.
  do 3 eexists. reflexivity.
Qed.

(** C7 (amended): there is no length check; [sites.backarc] and
    [dists.rhypo] meet in numpy broadcasting, which fails when their lengths
    differ and neither is 1. *)
Theorem C7_backarc_rhypo_mismatch_fails sites rup dists imt stddev_types C s av bs rs :
  COEFFS imt = Ok C ->
  heap s !! vs30 sites = Some av ->
  heap s !! backarc sites = Some (NBool bs) ->
  heap s !! rhypo dists = Some (NFloat rs) ->
  length bs <> length rs ->
  length bs <> 1%nat ->
  length rs <> 1%nat ->
  snd (get_mean_and_stddevs sites rup dists imt stddev_types s) = Err ExnBroadcast.
Proof.
  intros HC Hv Hb Hr Hne Hb1 Hr1.
  rewrite (mean_run _ _ _ _ _ _ _ _ _ _ HC Hv Hb Hr).
  unfold distance_arc_value, arr, as_floats, np_log, py_mul, py_add, py_sub.
  rewrite !broadcast_scalar_l. cbn [rbind].
  rewrite broadcast_mismatch by (rewrite ?length_map; assumption).
  reflexivity.
Qed.

Lemma C7_backarc_rhypo_mismatch_fails_witness :
  snd (get_mean_and_stddevs sites0 (mkRupture 6 100) dists0 PGA [TOTAL]
         (state_of [400] [false; true] [50; 60; 70])) = Err ExnBroadcast.
Proof.
  eapply (C7_backarc_rhypo_mismatch_fails _ _ _ _ _ _ _ (NFloat [400]) [false; true]
           [50; 60; 70]); [exact COEFFS_PGA | reflexivity | reflexivity | reflexivity
                           | cbn; lia | cbn; lia | cbn; lia].
Defined.

(** C8 (code_bug): two fore-arc sites, then the same batch with the first
    site flipped to back-arc: both calls raise the ValueError of the site
    term, so there is no mean to compare. *)
Theorem C8_backarc_flip_on_batch_raises :
  snd (get_mean_and_stddevs sites0 (mkRupture 6 100) dists0 PGA [TOTAL]
         (state_of [400; 400] [false; false] [50; 50])) = Err ExnAmbiguousTruth /\
  snd (get_mean_and_stddevs sites0 (mkRupture 6 100) dists0 PGA [TOTAL]
         (state_of [400; 400] [true; false] [50; 50])) = Err ExnAmbiguousTruth.
Proof.
  split; eapply mean_multi_site_raises; solve [exact COEFFS_PGA | cbn; lia | reflexivity].
Qed.

(** C9: the site term is [c8 site_b + c9 site_c] with exactly one of the two
    set: the class-S coefficient [c10] contributes nothing. *)
Theorem C9_site_term_has_no_class_S C sites s s' v :
  compute_site_response_term C sites s = (s', Ok v) ->
  exists site_b site_c,
    v = PScalar (c8 C * site_b + c9 C * site_c) /\
    ((site_b = 1 /\ site_c = 0) \/ (site_b = 0 /\ site_c = 1)).
Proof.
  intros H.
  destruct (heap s !! vs30 sites) as [a0|] eqn:Hv.
  - rewrite (site_run _ _ _ _ Hv) in H. injection H as _ H.
    unfold site_response_value, rbind in H.
    destruct (truth _) as [cond|e]; [|discriminate].
    injection H as <-.
    exists (if cond then 0 else 1), (if cond then 1 else 0).
    rewrite Rmult_0_r, Rplus_0_r.
    split; [reflexivity|]. destruct cond; [right | left]; split; reflexivity.
  - rewrite (site_run_missing _ _ _ Hv) in H. discriminate.
Qed.

Lemma C9_site_term_has_no_class_S_witness :
  exists s' v,
    compute_site_response_term
      (coeff_row 9.6231 1.4232 (-0.1555) (-1.1316) (-0.0114) (-0.0024)
         (-0.0007) (-0.0835) 0.1589 0.0488 0.698 0.406 0.568)
      sites0 (state_of [150] [false] [50]) = (s', Ok v) /\
    exists site_b site_c,
      v = PScalar (-0.0835 * site_b + 0.1589 * site_c) /\
      ((site_b = 1 /\ site_c = 0) \/ (site_b = 0 /\ site_c = 1)).
Proof.
  pose proof (site_run
                (coeff_row 9.6231 1.4232 (-0.1555) (-1.1316) (-0.0114) (-0.0024)
                   (-0.0007) (-0.0835) 0.1589 0.0488 0.698 0.406 0.568)
                sites0 (state_of [150] [false] [50]) (NFloat [150]) eq_refl) as E.
  rewrite site_value_single in E.
  do 2 eexists. split; [exact E|].
  exact (C9_site_term_has_no_class_S _ _ _ _ _ E).
Defined.

(** C10: a call writes nothing into the arrays it is given: every array of
    the store before the call is still there, unchanged, after it (the
    clipping works on a fresh copy of [sites.vs30]). *)
Theorem C10_inputs_unchanged sites rup dists imt stddev_types s :
  heap s ⊆ heap (fst (get_mean_and_stddevs sites rup dists imt stddev_types s)).
Proof. apply mean_effect. Qed.

(** ** Further properties of the code *)

Lemma loop_supported C stddev_types acc :
  Forall (fun t => DEFINED_FOR_STANDARD_DEVIATION_TYPES t = true) stddev_types ->
  get_stddevs_loop C stddev_types acc = Ok (acc ++ map (stddev_of C) stddev_types).
Proof.
  revert acc. induction stddev_types as [|t rest IH]; intros acc Hall.
  - cbn. rewrite app_nil_r. reflexivity.
  - inversion Hall as [|? ? Ht Hrest]; subst. cbn. rewrite Ht. cbn.
    rewrite IH by exact Hrest. rewrite <- app_assoc.
    destruct t; try discriminate; reflexivity.
Qed.

(** [_get_stddevs] with supported kinds only: one entry per requested kind,
    in the order requested, [sigma_t] for TOTAL, [tau] for INTER_EVENT and
    [sigma] for INTRA_EVENT. *)
Theorem get_stddevs_selects_in_order C stddev_types s :
  Forall (fun t => DEFINED_FOR_STANDARD_DEVIATION_TYPES t = true) stddev_types ->
  snd (get_stddevs C stddev_types s) = Ok (map (stddev_of C) stddev_types).
Proof. intros H. rewrite stddevs_run. cbn [snd]. apply loop_supported, H. Qed.

Lemma get_stddevs_selects_in_order_witness :
  snd (get_stddevs
         (coeff_row 9.6231 1.4232 (-0.1555) (-1.1316) (-0.0114) (-0.0024)
            (-0.0007) (-0.0835) 0.1589 0.0488 0.698 0.406 0.568)
         [INTRA_EVENT; TOTAL; INTER_EVENT; TOTAL] (state_of [] [] []))
  = Ok [PScalar 0.568; PScalar 0.698; PScalar 0.406; PScalar 0.698].
Proof.
  exact (get_stddevs_selects_in_order
           (coeff_row 9.6231 1.4232 (-0.1555) (-1.1316) (-0.0114) (-0.0024)
              (-0.0007) (-0.0835) 0.1589 0.0488 0.698 0.406 0.568)
           [INTRA_EVENT; TOTAL; INTER_EVENT; TOTAL] (state_of [] [] [])
           ltac:(repeat constructor)).
Defined.

(** [_get_stddevs] is all or nothing: one unsupported kind anywhere in the
    list, even after supported ones, raises [AssertionError] and no list is
    returned. *)
Theorem get_stddevs_rejects_unsupported C stddev_types s :
  (exists t, In t stddev_types /\ DEFINED_FOR_STANDARD_DEVIATION_TYPES t = false) ->
  snd (get_stddevs C stddev_types s) = Err AssertionError.
Proof. intros H. rewrite stddevs_run. cbn [snd]. apply loop_rejects, H. Qed.

Lemma get_stddevs_rejects_unsupported_witness :
  snd (get_stddevs
         (coeff_row 9.6231 1.4232 (-0.1555) (-1.1316) (-0.0114) (-0.0024)
            (-0.0007) (-0.0835) 0.1589 0.0488 0.698 0.406 0.568)
         [TOTAL; INTER_EVENT; StdDevOther "Event specific"%string] (state_of [] [] []))
  = Err AssertionError.
Proof.
  apply get_stddevs_rejects_unsupported.
  exists (StdDevOther "Event specific"%string). split; [right; right; left |]; reflexivity.
Defined.

Lemma clip_le_360 v : Rleb (clip v) 360 = Rleb v 360.
Proof.
  unfold clip, Rgtb, Rltb, Rleb.
  destruct (Rlt_dec 800 v); destruct (Rle_dec v 360);
  repeat (destruct (Rlt_dec _ _)); repeat (destruct (Rle_dec _ _)); try reflexivity; lra.
Qed.

(** The site term of a one-site call: clipping never changes the class, so
    the term is [c9] when Vs30 <= 360 and [c8] otherwise, also for Vs30
    outside [180, 800]. *)
Theorem site_term_one_site C sites s v :
  heap s !! vs30 sites = Some (NFloat [v]) ->
  exists x, snd (compute_site_response_term C sites s) = Ok (PScalar x) /\
            x = (if Rle_dec v 360 then c9 C else c8 C).
Proof.
  intros Hv. rewrite (site_run _ _ _ _ Hv). cbn [snd].
  rewrite site_value_single. eexists. split; [reflexivity|].
  unfold site_at. rewrite clip_le_360. unfold Rleb.
  destruct (Rle_dec v 360); lra.
Qed.

Lemma site_term_one_site_witness :
  exists x, snd (compute_site_response_term
                   (coeff_row 9.6231 1.4232 (-0.1555) (-1.1316) (-0.0114) (-0.0024)
                      (-0.0007) (-0.0835) 0.1589 0.0488 0.698 0.406 0.568)
                   sites0 (state_of [1000] [false] [50])) = Ok (PScalar x) /\
            x = (if Rle_dec 1000 360 then 0.1589 else -0.0835).
Proof. apply site_term_one_site. reflexivity. Defined.




(** Any batch of two or more sites fails in the site term with numpy's
    ValueError, whatever the Vs30 values, once the distance/arc term has
    been computed. *)
Theorem mean_raises_on_batches sites rup dists imt stddev_types C s vs bs rs :
  COEFFS imt = Ok C ->
  heap s !! vs30 sites = Some (NFloat vs) ->
  heap s !! backarc sites = Some (NBool bs) ->
  heap s !! rhypo dists = Some (NFloat rs) ->
  length bs = length rs ->
  (2 <= length vs)%nat ->
  snd (get_mean_and_stddevs sites rup dists imt stddev_types s) = Err ExnAmbiguousTruth.
Proof.
  intros HC Hv Hb Hr Hbr H2.
  rewrite (mean_run_same_length _ _ _ _ _ _ _ _ _ _ HC Hv Hb Hr Hbr).
  rewrite site_value_multi by exact H2. reflexivity.
Qed.

Lemma mean_raises_on_batches_witness :
  snd (get_mean_and_stddevs (mkSites 5 7) (mkRupture 7.2 140) (mkDistances 9)
         (SA (10 # 10)) [TOTAL]
         (mkState (<[5%nat := NFloat [900; 950; 1000]]>
                   (<[7%nat := NBool [true; true; false]]>
                    (<[9%nat := NFloat [100; 150; 200]]> ∅))) []))
  = Err ExnAmbiguousTruth.
Proof.
  eapply mean_raises_on_batches; [reflexivity | reflexivity | reflexivity | reflexivity
                                 | reflexivity | cbn; lia].
Defined.

(** Flipping the back-arc flag of one fore-arc site changes the
    distance/arc term at that site only, by [(c5 - c6) * rhypo]. *)
Theorem distance_backarc_flip_is_local C m sites dists s s' bs rs i r :
  heap s !! backarc sites = Some (NBool bs) ->
  heap s !! rhypo dists = Some (NFloat rs) ->
  heap s' !! backarc sites = Some (NBool (<[i := true]> bs)) ->
  heap s' !! rhypo dists = Some (NFloat rs) ->
  length bs = length rs ->
  bs !! i = Some false ->
  rs !! i = Some r ->
  exists l l',
    snd (compute_distance_arc_term C m sites dists s) = Ok (PArr l) /\
    snd (compute_distance_arc_term C m sites dists s') = Ok (PArr l') /\
    (forall j, j <> i -> l' !! j = l !! j) /\
    exists x x', l !! i = Some x /\ l' !! i = Some x' /\ x' = x + (c5 C - c6 C) * r.
Proof.
  intros Hb Hr Hb' Hr' Hlen Hbi Hri.
  rewrite (distance_run _ _ _ _ _ _ _ Hb Hr), (distance_run _ _ _ _ _ _ _ Hb' Hr').
  cbn [snd].
  rewrite !distance_value_same_length by (rewrite ?length_insert; exact Hlen).
  do 2 eexists. split; [reflexivity|]. split; [reflexivity|]. split.
  - intros j Hj. rewrite !lookup_zip_with, list_lookup_insert_ne by congruence.
    reflexivity.
  - assert (Hi : (i < length bs)%nat) by (apply lookup_lt_Some with false; exact Hbi).
    rewrite !lookup_zip_with, list_lookup_insert_eq by exact Hi.
    rewrite Hbi, Hri. cbn. do 2 eexists. split; [reflexivity|]. split; [reflexivity|].
    unfold distance_at, b2R. lra.
Qed.

Lemma distance_backarc_flip_is_local_witness :
  exists l l',
    snd (compute_distance_arc_term
           (coeff_row 9.6231 1.4232 (-0.1555) (-1.1316) (-0.0114) (-0.0024)
              (-0.0007) (-0.0835) 0.1589 0.0488 0.698 0.406 0.568)
           6 sites0 dists0 (state_of [400; 400] [false; false] [50; 70])) = Ok (PArr l) /\
    snd (compute_distance_arc_term
           (coeff_row 9.6231 1.4232 (-0.1555) (-1.1316) (-0.0114) (-0.0024)
              (-0.0007) (-0.0835) 0.1589 0.0488 0.698 0.406 0.568)
           6 sites0 dists0 (state_of [400; 400] [true; false] [50; 70])) = Ok (PArr l') /\
    (forall j, j <> 0%nat -> l' !! j = l !! j) /\
    exists x x', l !! 0%nat = Some x /\ l' !! 0%nat = Some x' /\
                 x' = x + (-0.0114 - -0.0024) * 50.
Proof.
  exact (distance_backarc_flip_is_local
           (coeff_row 9.6231 1.4232 (-0.1555) (-1.1316) (-0.0114) (-0.0024)
              (-0.0007) (-0.0835) 0.1589 0.0488 0.698 0.406 0.568)
           6 sites0 dists0 (state_of [400; 400] [false; false] [50; 70])
           (state_of [400; 400] [true; false] [50; 70]) [false; false] [50; 70] 0 50
           eq_refl eq_refl eq_refl eq_refl eq_refl eq_refl eq_refl).
Defined.

(** Doubling every hypocentral distance (all positive) adds
    [c4 * ln 2 + slope * rhypo] to each site's distance/arc term, where the
    slope is [c5] at a back-arc site and [c6] elsewhere. *)
Theorem distance_doubling C m sites dists s s' bs rs :
  heap s !! backarc sites = Some (NBool bs) ->
  heap s !! rhypo dists = Some (NFloat rs) ->
  heap s' !! backarc sites = Some (NBool bs) ->
  heap s' !! rhypo dists = Some (NFloat (map (Rmult 2) rs)) ->
  length bs = length rs ->
  Forall (fun r => 0 < r) rs ->
  snd (compute_distance_arc_term C m sites dists s)
    = Ok (PArr (zip_with (distance_at C) bs rs)) /\
  snd (compute_distance_arc_term C m sites dists s')
    = Ok (PArr (zip_with (fun b r => distance_at C b r + c4 C * ln 2
                                     + (c5 C * b2R b + c6 C * (1 - b2R b)) * r) bs rs)).
Proof.
  intros Hb Hr Hb' Hr' Hlen Hpos.
  rewrite (distance_run _ _ _ _ _ _ _ Hb Hr), (distance_run _ _ _ _ _ _ _ Hb' Hr').
  cbn [snd].
  rewrite !distance_value_same_length by (rewrite ?length_map; exact Hlen).
  split; [reflexivity|]. do 2 f_equal.
  clear Hb Hr Hb' Hr'. revert rs Hlen Hpos.
  induction bs as [|b bs IH]; intros [|r rs] Hlen Hpos; cbn in *; try lia; [reflexivity|].
  inversion Hpos as [|? ? Hr0 Hrest]; subst.
  rewrite IH by (lia || exact Hrest). f_equal.
  unfold distance_at. rewrite ln_mult by lra. lra.
Qed.

Lemma distance_doubling_witness :
  snd (compute_distance_arc_term
         (coeff_row 9.6231 1.4232 (-0.1555) (-1.1316) (-0.0114) (-0.0024)
            (-0.0007) (-0.0835) 0.1589 0.0488 0.698 0.406 0.568)
         6 sites0 dists0 (state_of [400] [true] [50]))
    = Ok (PArr (zip_with (distance_at
         (coeff_row 9.6231 1.4232 (-0.1555) (-1.1316) (-0.0114) (-0.0024)
            (-0.0007) (-0.0835) 0.1589 0.0488 0.698 0.406 0.568)) [true] [50])) /\
  snd (compute_distance_arc_term
         (coeff_row 9.6231 1.4232 (-0.1555) (-1.1316) (-0.0114) (-0.0024)
            (-0.0007) (-0.0835) 0.1589 0.0488 0.698 0.406 0.568)
         6 sites0 dists0 (state_of [400] [true] (map (Rmult 2) [50])))
    = Ok (PArr (zip_with (fun b r =>
         distance_at (coeff_row 9.6231 1.4232 (-0.1555) (-1.1316) (-0.0114) (-0.0024)
                        (-0.0007) (-0.0835) 0.1589 0.0488 0.698 0.406 0.568) b r
         + -1.1316 * ln 2 + (-0.0114 * b2R b + -0.0024 * (1 - b2R b)) * r) [true] [50])).
Proof.
  exact (distance_doubling
           (coeff_row 9.6231 1.4232 (-0.1555) (-1.1316) (-0.0114) (-0.0024)
              (-0.0007) (-0.0835) 0.1589 0.0488 0.698 0.406 0.568)
           6 sites0 dists0 (state_of [400] [true] [50])
           (state_of [400] [true] (map (Rmult 2) [50])) [true] [50]
           eq_refl eq_refl eq_refl eq_refl eq_refl
           ltac:(repeat constructor; lra)).
Defined.

Lemma one_site_run sites rup dists imt stddev_types C s v b r :
  COEFFS imt = Ok C ->
  heap s !! vs30 sites = Some (NFloat [v]) ->
  heap s !! backarc sites = Some (NBool [b]) ->
  heap s !! rhypo dists = Some (NFloat [r]) ->
  snd (get_mean_and_stddevs sites rup dists imt stddev_types s) =
  rbind (get_stddevs_loop C stddev_types []) (fun stddevs =>
    Ok (PArr [magnitude_at C (mag rup) + distance_at C b r + depth_at C rup + site_at C v],
        stddevs)).
Proof.
  intros HC Hv Hb Hr.
  rewrite (mean_run_same_length _ _ _ _ _ C s [v] [b] [r] HC Hv Hb Hr eq_refl).
  rewrite site_value_single. reflexivity.
Qed.

Lemma site_at_class C v : site_at C v = if Rle_dec v 360 then c9 C else c8 C.
Proof. unfold site_at. rewrite clip_le_360. unfold Rleb. destruct (Rle_dec v 360); lra. Qed.

Lemma loop_ok C stddev_types acc l :
  get_stddevs_loop C stddev_types acc = Ok l -> l = acc ++ map (stddev_of C) stddev_types.
Proof.
  revert acc. induction stddev_types as [|t rest IH]; intros acc H; cbn in H.
  - injection H as <-. rewrite app_nil_r. reflexivity.
  - destruct t; cbn in H; try discriminate; apply IH in H; rewrite H, <- app_assoc; reflexivity.
Qed.

Lemma COEFFS_in imt C : COEFFS imt = Ok C -> In C (map snd COEFFS_rows).
Proof.
  unfold COEFFS. destruct (List.find _ _) as [[p C']|] eqn:Hf; [|discriminate].
  intros H. injection H as <-. apply List.find_some in Hf as [Hin _].
  apply (in_map snd) in Hin. exact Hin.
Qed.

(** A one-site call with a tabulated IMT and supported kinds always
    succeeds: the mean is the one-element array of the four terms, the site
    term being [c9] for Vs30 <= 360 and [c8] above, and the standard
    deviations are the selected table columns. *)
Theorem one_site_call_succeeds sites rup dists imt stddev_types C s v b r :
  COEFFS imt = Ok C ->
  heap s !! vs30 sites = Some (NFloat [v]) ->
  heap s !! backarc sites = Some (NBool [b]) ->
  heap s !! rhypo dists = Some (NFloat [r]) ->
  Forall (fun t => DEFINED_FOR_STANDARD_DEVIATION_TYPES t = true) stddev_types ->
  snd (get_mean_and_stddevs sites rup dists imt stddev_types s) =
  Ok (PArr [magnitude_at C (mag rup) + distance_at C b r + depth_at C rup
            + (if Rle_dec v 360 then c9 C else c8 C)],
      map (stddev_of C) stddev_types).
Proof.
  intros HC Hv Hb Hr Hall.
  rewrite (one_site_run _ _ _ _ _ C s v b r HC Hv Hb Hr), (loop_supported C _ [] Hall).
  cbn [rbind app]. rewrite site_at_class. reflexivity.
Qed.

Lemma one_site_call_succeeds_witness :
  snd (get_mean_and_stddevs sites0 (mkRupture 7 80) dists0 (SA (10 # 10))
         [INTER_EVENT; INTRA_EVENT] (state_of [150] [true] [120])) =
  Ok (PArr [magnitude_at (coeff_row 8.9987 1.9964 (-0.2658) (-1.1226) (-0.0071) (-0.0031) (-0.0009) (-0.2992) 0.0739 (-0.0955) 0.715 0.400 0.592) 7
            + distance_at (coeff_row 8.9987 1.9964 (-0.2658) (-1.1226) (-0.0071) (-0.0031) (-0.0009) (-0.2992) 0.0739 (-0.0955) 0.715 0.400 0.592) true 120
            + depth_at (coeff_row 8.9987 1.9964 (-0.2658) (-1.1226) (-0.0071) (-0.0031) (-0.0009) (-0.2992) 0.0739 (-0.0955) 0.715 0.400 0.592) (mkRupture 7 80)
            + (if Rle_dec 150 360 then 0.0739 else -0.2992)],
      [PScalar 0.400; PScalar 0.592]).
Proof.
  exact (one_site_call_succeeds sites0 (mkRupture 7 80) dists0 (SA (10 # 10))
           [INTER_EVENT; INTRA_EVENT]
           (coeff_row 8.9987 1.9964 (-0.2658) (-1.1226) (-0.0071) (-0.0031) (-0.0009) (-0.2992) 0.0739 (-0.0955) 0.715 0.400 0.592)
           (state_of [150] [true] [120]) 150 true 120
           eq_refl eq_refl eq_refl eq_refl ltac:(repeat constructor)).
Defined.

(** The standard deviations of a successful call come from the table row of
    the IMT alone: two successful calls with the same IMT and the same kinds
    return the same list, whatever their sites, rupture and distances. *)
Theorem stddevs_independent_of_inputs imt stddev_types sites rup dists s sites' rup' dists' s'
    mean sds mean' sds' :
  snd (get_mean_and_stddevs sites rup dists imt stddev_types s) = Ok (mean, sds) ->
  snd (get_mean_and_stddevs sites' rup' dists' imt stddev_types s') = Ok (mean', sds') ->
  sds = sds' /\ exists C, COEFFS imt = Ok C /\ sds = map (stddev_of C) stddev_types.
Proof.
  intros H1 H2.
  destruct (mean_effect sites rup dists imt stddev_types s) as [_ [_ E1]].
  destruct (mean_effect sites' rup' dists' imt stddev_types s') as [_ [_ E2]].
  destruct (E1 _ H1) as [C [HC L1]], (E2 _ H2) as [C' [HC' L2]].
  rewrite HC in HC'. injection HC' as <-. cbn [snd] in L1, L2.
  apply loop_ok in L1, L2. cbn in L1, L2. subst. eauto.
Qed.

Lemma stddevs_independent_of_inputs_witness :
  [PScalar 0.698] = [PScalar 0.698] /\
  exists C, COEFFS PGA = Ok C /\ [PScalar 0.698] = map (stddev_of C) [TOTAL].
Proof.
  pose proof (one_site_run sites0 (mkRupture 6 100) dists0 PGA [TOTAL] _
                (state_of [400] [false] [50]) 400 false 50 COEFFS_PGA eq_refl eq_refl eq_refl)
    as E1.
  pose proof (one_site_run (mkSites 4 3) (mkRupture 8 40) (mkDistances 5) PGA [TOTAL] _
                (mkState (<[4%nat := NFloat [900]]> (<[3%nat := NBool [true]]>
                           (<[5%nat := NFloat [200]]> ∅))) [])
                900 true 200 COEFFS_PGA eq_refl eq_refl eq_refl)
    as E2.
  cbn [get_stddevs_loop DEFINED_FOR_STANDARD_DEVIATION_TYPES negb app rbind sigma_t] in E1, E2.
  exact (stddevs_independent_of_inputs PGA [TOTAL] sites0 (mkRupture 6 100) dists0
           (state_of [400] [false] [50]) (mkSites 4 3) (mkRupture 8 40) (mkDistances 5)
           (mkState (<[4%nat := NFloat [900]]> (<[3%nat := NBool [true]]>
                      (<[5%nat := NFloat [200]]> ∅))) [])
           _ [PScalar 0.698] _ [PScalar 0.698] E1 E2).
Defined.



(** An empty site collection is not an error: the [if] on an empty array
    takes the [else] branch, and the call returns an empty mean array with
    the standard deviations. *)
Theorem empty_collection_gives_empty_mean sites rup dists imt stddev_types C s :
  COEFFS imt = Ok C ->
  heap s !! vs30 sites = Some (NFloat []) ->
  heap s !! backarc sites = Some (NBool []) ->
  heap s !! rhypo dists = Some (NFloat []) ->
  Forall (fun t => DEFINED_FOR_STANDARD_DEVIATION_TYPES t = true) stddev_types ->
  snd (get_mean_and_stddevs sites rup dists imt stddev_types s) =
  Ok (PArr [], map (stddev_of C) stddev_types).
Proof.
  intros HC Hv Hb Hr Hall.
  rewrite (mean_run_same_length _ _ _ _ _ C s [] [] [] HC Hv Hb Hr eq_refl).
  rewrite (loop_supported C _ [] Hall). reflexivity.
Qed.

Lemma empty_collection_gives_empty_mean_witness :
  snd (get_mean_and_stddevs sites0 (mkRupture 6 100) dists0 PGA [TOTAL; INTER_EVENT]
         (state_of [] [] [])) = Ok (PArr [], [PScalar 0.698; PScalar 0.406]).
Proof.
  exact (empty_collection_gives_empty_mean sites0 (mkRupture 6 100) dists0 PGA
           [TOTAL; INTER_EVENT] _ (state_of [] [] []) COEFFS_PGA eq_refl eq_refl eq_refl
           ltac:(repeat constructor)).
Defined.

Lemma COEFFS_row_facts imt C :
  COEFFS imt = Ok C ->
  c3 C < 0 /\ c4 C < 0 /\ c5 C < c6 C < 0 /\
  Rabs (sigma_t C * sigma_t C - (tau C * tau C + sigma C * sigma C)) < / 1000.
Proof.
  intros H. apply COEFFS_in in H. cbn [COEFFS_rows map snd] in H.
  repeat (destruct H as [<- | H]); [..| destruct H];
    cbn [c3 c4 c5 c6 sigma_t tau sigma];
    (split; [lra|]); (split; [lra|]); (split; [lra|]);
    apply Rabs_def1; lra.
Qed.

(** Every row of the table has a concave magnitude term ([c3 < 0]), a
    negative [ln rhypo] slope ([c4 < 0]), a steeper linear decay for back-arc
    than for fore-arc sites ([c5 < c6 < 0]), and [sigma_t] equal to the
    root-sum-square of [tau] and [sigma] up to the table's rounding. *)
Theorem COEFFS_rows_consistent imt C :
  COEFFS imt = Ok C ->
  c3 C < 0 /\ c4 C < 0 /\ c5 C < c6 C < 0 /\
  Rabs (sigma_t C * sigma_t C - (tau C * tau C + sigma C * sigma C)) < / 1000.
Proof. apply COEFFS_row_facts. Qed.

Lemma COEFFS_rows_consistent_witness :
  c3 (coeff_row 4.4928 2.2796 (-0.2580) (-0.6215) (-0.0062) (-0.0041) (-0.0048) (-0.3763) 0.0512 (-0.1428) 0.792 0.443 0.657) < 0 /\
  c4 (coeff_row 4.4928 2.2796 (-0.2580) (-0.6215) (-0.0062) (-0.0041) (-0.0048) (-0.3763) 0.0512 (-0.1428) 0.792 0.443 0.657) < 0 /\
  c5 (coeff_row 4.4928 2.2796 (-0.2580) (-0.6215) (-0.0062) (-0.0041) (-0.0048) (-0.3763) 0.0512 (-0.1428) 0.792 0.443 0.657)
    < c6 (coeff_row 4.4928 2.2796 (-0.2580) (-0.6215) (-0.0062) (-0.0041) (-0.0048) (-0.3763) 0.0512 (-0.1428) 0.792 0.443 0.657) < 0 /\
  Rabs (0.792 * 0.792 - (0.443 * 0.443 + 0.657 * 0.657)) < / 1000.
Proof. exact (COEFFS_rows_consistent (SA (40 # 10)) _ eq_refl). Defined.

(** For every tabulated IMT, a one-site call at a back-arc site returns a
    strictly lower mean than the same call at a fore-arc site (same Vs30,
    same positive distance), with the same standard deviations. *)
Theorem backarc_site_has_lower_mean sites rup dists imt stddev_types C s s' v r :
  COEFFS imt = Ok C ->
  0 < r ->
  heap s !! vs30 sites = Some (NFloat [v]) ->
  heap s !! backarc sites = Some (NBool [true]) ->
  heap s !! rhypo dists = Some (NFloat [r]) ->
  heap s' !! vs30 sites = Some (NFloat [v]) ->
  heap s' !! backarc sites = Some (NBool [false]) ->
  heap s' !! rhypo dists = Some (NFloat [r]) ->
  Forall (fun t => DEFINED_FOR_STANDARD_DEVIATION_TYPES t = true) stddev_types ->
  exists x x' sds,
    snd (get_mean_and_stddevs sites rup dists imt stddev_types s) = Ok (PArr [x], sds) /\
    snd (get_mean_and_stddevs sites rup dists imt stddev_types s') = Ok (PArr [x'], sds) /\
    x < x'.
Proof.
  intros HC Hr0 Hv Hb Hr Hv' Hb' Hr' Hall.
  rewrite (one_site_run _ _ _ _ _ C s v true r HC Hv Hb Hr),
          (one_site_run _ _ _ _ _ C s' v false r HC Hv' Hb' Hr'),
          (loop_supported C _ [] Hall).
  cbn [rbind]. do 3 eexists. split; [reflexivity|]. split; [reflexivity|].
  destruct (COEFFS_row_facts _ _ HC) as [_ [_ [[H56 _] _]]].
  unfold distance_at, b2R. apply Rplus_lt_compat_r, Rplus_lt_compat_r, Rplus_lt_compat_l.
  nra.
Qed.

Lemma backarc_site_has_lower_mean_witness :
  exists x x' sds,
    snd (get_mean_and_stddevs sites0 (mkRupture 7 60) dists0 (SA (5 # 10)) [TOTAL]
           (state_of [300] [true] [90])) = Ok (PArr [x], sds) /\
    snd (get_mean_and_stddevs sites0 (mkRupture 7 60) dists0 (SA (5 # 10)) [TOTAL]
           (state_of [300] [false] [90])) = Ok (PArr [x'], sds) /\
    x < x'.
Proof.
  exact (backarc_site_has_lower_mean sites0 (mkRupture 7 60) dists0 (SA (5 # 10)) [TOTAL] _
           (state_of [300] [true] [90]) (state_of [300] [false] [90]) 300 90
           eq_refl ltac:(lra) eq_refl eq_refl eq_refl eq_refl eq_refl eq_refl
           ltac:(repeat constructor)).
Defined.

Lemma COEFFS_site_order imt C : COEFFS imt = Ok C -> c8 C < c9 C.
Proof.
  intros H. apply COEFFS_in in H. cbn [COEFFS_rows map snd] in H.
  repeat (destruct H as [<- | H]); [..| destruct H]; cbn [c8 c9]; lra.
Qed.

(** For every tabulated IMT, a one-site call at a soft site (Vs30 <= 360)
    returns a strictly higher mean than the same call at a stiffer site
    (Vs30 > 360), with the same standard deviations. *)
Theorem soft_site_has_higher_mean sites rup dists imt stddev_types C s s' v v' b r :
  COEFFS imt = Ok C ->
  v <= 360 < v' ->
  heap s !! vs30 sites = Some (NFloat [v]) ->
  heap s !! backarc sites = Some (NBool [b]) ->
  heap s !! rhypo dists = Some (NFloat [r]) ->
  heap s' !! vs30 sites = Some (NFloat [v']) ->
  heap s' !! backarc sites = Some (NBool [b]) ->
  heap s' !! rhypo dists = Some (NFloat [r]) ->
  Forall (fun t => DEFINED_FOR_STANDARD_DEVIATION_TYPES t = true) stddev_types ->
  exists x x' sds,
    snd (get_mean_and_stddevs sites rup dists imt stddev_types s) = Ok (PArr [x], sds) /\
    snd (get_mean_and_stddevs sites rup dists imt stddev_types s') = Ok (PArr [x'], sds) /\
    x' < x.
Proof.
  intros HC [Hv0 Hv0'] Hv Hb Hr Hv' Hb' Hr' Hall.
  rewrite (one_site_run _ _ _ _ _ C s v b r HC Hv Hb Hr),
          (one_site_run _ _ _ _ _ C s' v' b r HC Hv' Hb' Hr'),
          (loop_supported C _ [] Hall).
  cbn [rbind]. do 3 eexists. split; [reflexivity|]. split; [reflexivity|].
  rewrite !site_at_class.
  destruct (Rle_dec v 360) as [_|n]; [|lra].
  destruct (Rle_dec v' 360) as [y|_]; [lra|].
  pose proof (COEFFS_site_order _ _ HC). lra.
Qed.

Lemma soft_site_has_higher_mean_witness :
  exists x x' sds,
    snd (get_mean_and_stddevs sites0 (mkRupture 6.5 100) dists0 PGA [TOTAL; INTRA_EVENT]
           (state_of [200] [false] [150])) = Ok (PArr [x], sds) /\
    snd (get_mean_and_stddevs sites0 (mkRupture 6.5 100) dists0 PGA [TOTAL; INTRA_EVENT]
           (state_of [760] [false] [150])) = Ok (PArr [x'], sds) /\
    x' < x.
Proof.
  exact (soft_site_has_higher_mean sites0 (mkRupture 6.5 100) dists0 PGA [TOTAL; INTRA_EVENT] _
           (state_of [200] [false] [150]) (state_of [760] [false] [150]) 200 760 false 150
           COEFFS_PGA ltac:(lra) eq_refl eq_refl eq_refl eq_refl eq_refl eq_refl
           ltac:(repeat constructor)).
Defined.
